(** * The weather tool of phase 5 ([solutions/phase-05/tools.py])

    A shallow embedding of [get_weather] and of the part of the Python
    runtime it touches: the process environment, one outbound HTTP call,
    JSON values as Python objects, exceptions with their class hierarchy
    and the [try]/[except] statement.

    Python [str] values are kept as their UTF-8 bytes. *)

From Stdlib Require Import Ascii QArith.
From stdpp Require Import base option list strings pretty gmap.

Local Open Scope string_scope.
Local Open Scope Z_scope.

Set Warnings "-register-all".

(** ** Exceptions *)

Module Exc.

(** The exception classes that can reach the tool: the builtins, the
    classes of [httpx] ([httpx/_exceptions.py]) and of [json], each with a
    single base class.  [Subclass name base] stands for any further class
    derived from one of them. *)
Inductive cls : Type :=
| BaseException | SystemExit | KeyboardInterrupt | GeneratorExit
| Exception
| AttributeError | LookupError | KeyError | IndexError | TypeError
| ValueError | UnicodeError | UnicodeDecodeError | JSONDecodeError
| RuntimeError | OSError
| HTTPError
| RequestError
| TransportError
| TimeoutException | ConnectTimeout | ReadTimeout | WriteTimeout | PoolTimeout
| NetworkError | ConnectError | ReadError | WriteError | CloseError
| ProtocolError | LocalProtocolError | RemoteProtocolError
| ProxyError | UnsupportedProtocol
| DecodingError | TooManyRedirects
| HTTPStatusError
| InvalidURL | CookieConflict | StreamError
| Subclass (name : string) (base : cls).

(** [c.__base__]; [None] for the root. *)
Definition base (c : cls) : option cls :=
  match c with
  | BaseException => None
  | SystemExit | KeyboardInterrupt | GeneratorExit | Exception =>
      Some BaseException
  | AttributeError | LookupError | TypeError | ValueError | RuntimeError
  | OSError | HTTPError | InvalidURL | CookieConflict => Some Exception
  | StreamError => Some RuntimeError
  | KeyError | IndexError => Some LookupError
  | UnicodeError | JSONDecodeError => Some ValueError
  | UnicodeDecodeError => Some UnicodeError
  | RequestError | HTTPStatusError => Some HTTPError
  | TransportError | DecodingError | TooManyRedirects => Some RequestError
  | TimeoutException | NetworkError | ProtocolError | ProxyError
  | UnsupportedProtocol => Some TransportError
  | ConnectTimeout | ReadTimeout | WriteTimeout | PoolTimeout =>
      Some TimeoutException
  | ConnectError | ReadError | WriteError | CloseError => Some NetworkError
  | LocalProtocolError | RemoteProtocolError => Some ProtocolError
  | Subclass _ b => Some b
  end.

(** [c.__name__] *)
Definition name (c : cls) : string :=
  match c with
  | BaseException => "BaseException" | SystemExit => "SystemExit"
  | KeyboardInterrupt => "KeyboardInterrupt"
  | GeneratorExit => "GeneratorExit" | Exception => "Exception"
  | AttributeError => "AttributeError" | LookupError => "LookupError"
  | KeyError => "KeyError" | IndexError => "IndexError"
  | TypeError => "TypeError" | ValueError => "ValueError"
  | UnicodeError => "UnicodeError"
  | UnicodeDecodeError => "UnicodeDecodeError"
  | JSONDecodeError => "JSONDecodeError" | RuntimeError => "RuntimeError"
  | OSError => "OSError" | HTTPError => "HTTPError"
  | RequestError => "RequestError" | TransportError => "TransportError"
  | TimeoutException => "TimeoutException"
  | ConnectTimeout => "ConnectTimeout" | ReadTimeout => "ReadTimeout"
  | WriteTimeout => "WriteTimeout" | PoolTimeout => "PoolTimeout"
  | NetworkError => "NetworkError" | ConnectError => "ConnectError"
  | ReadError => "ReadError" | WriteError => "WriteError"
  | CloseError => "CloseError" | ProtocolError => "ProtocolError"
  | LocalProtocolError => "LocalProtocolError"
  | RemoteProtocolError => "RemoteProtocolError"
  | ProxyError => "ProxyError"
  | UnsupportedProtocol => "UnsupportedProtocol"
  | DecodingError => "DecodingError"
  | TooManyRedirects => "TooManyRedirects"
  | HTTPStatusError => "HTTPStatusError" | InvalidURL => "InvalidURL"
  | CookieConflict => "CookieConflict" | StreamError => "StreamError"
  | Subclass n _ => n
  end.

(** A class of the table above, as opposed to a derived one. *)
Definition builtin (c : cls) : bool :=
  match c with
  | Subclass _ _ => false
  | _ => true
  end.

(** [c is d]: the classes of the table are told apart by their names, a
    derived class by its name and its base. *)
Fixpoint same (c d : cls) : bool :=
  match c with
  | Subclass n b =>
      match d with
      | Subclass n' b' => String.eqb n n' && same b b'
      | _ => false
      end
  | _ => builtin d && String.eqb (name c) (name d)
  end.

(** Walk up the bases of a named class; the hierarchy above is at most
    six levels deep. *)
Fixpoint climb (fuel : nat) (c d : cls) : bool :=
  if same c d then true
  else match fuel, base c with
       | S n, Some b => climb n b d
       | _, _ => false
       end.

(** [issubclass(c, d)] *)
Fixpoint issubclass (c d : cls) : bool :=
  if same c d then true
  else match c with
       | Subclass _ b => issubclass b d
       | _ => climb 6 c d
       end.

End Exc.

(** ** Python objects read from JSON *)

(** What [json.loads] builds: [None], [bool], [int], [float], [str], [list]
    and [dict] (in insertion order, keys distinct).  A [float] is kept as its
    [repr], the only thing the tool ever asks of it. *)
Inductive value : Type :=
| VNone
| VBool (b : bool)
| VInt (n : Z)
| VFloat (repr : string)
| VStr (s : string)
| VList (items : list value)
| VDict (items : list (string * value)).

(** [repr] of a [str] is CPython's (quote choice, escapes, the Unicode
    tables behind [str.isprintable]); the development is generic in it. *)
Class PyRepr := repr_str : string → string.

(** [repr(v)] *)
Fixpoint py_repr `{PyRepr} (v : value) : string :=
  match v with
  | VNone => "None"
  | VBool true => "True"
  | VBool false => "False"
  | VInt n => pretty n
  | VFloat r => r
  | VStr s => repr_str s
  | VList l => "[" +:+ String.concat ", " (map py_repr l) +:+ "]"
  | VDict kvs =>
      "{" +:+ String.concat ", "
                (map (λ kv, let '(k, x) := kv in
                            repr_str k +:+ ": " +:+ py_repr x) kvs) +:+ "}"
  end.

(** [str(v)], which is also [format(v, '')], what an f-string field
    [{v}] renders. *)
Definition py_str `{PyRepr} (v : value) : string :=
  match v with
  | VStr s => s
  | _ => py_repr v
  end.

(** ** Responses, exceptions, requests *)

(** [response.json()] either decodes the body or fails on it. *)
Inductive payload : Type :=
| Json (data : value)
| Malformed (detail : string).

(** The [httpx.Response] object a call returns, as far as the tool looks
    at it.  [status_text] is the message [raise_for_status] builds from this
    object: its status code and reason phrase and the URL of its request,
    query included.  It is worded by [httpx], on this side of the network,
    and belongs to the object, not to what the provider sent. *)
Record response : Type := Response {
  status_code : Z;
  status_text : string;
  body : payload
}.

(** An exception instance: its class, [str(e)], and the [response]
    attribute when it has one. *)
Record exn : Type := Exn {
  exc_type : Exc.cls;
  exc_str : string;
  exc_response : option response
}.

(** [isinstance(e, c)] *)
Definition isinstance (e : exn) (c : Exc.cls) : bool :=
  Exc.issubclass (exc_type e) c.

(** One call of [httpx.request]: method, URL, query parameters in order,
    timeout in seconds. *)
Record request : Type := Request {
  req_method : string;
  req_url : string;
  req_params : list (string * string);
  req_timeout : Q
}.

(** What a call of [httpx.get] comes to: the response object, with any
    status, or an exception the call raises. *)
Inductive reply : Type :=
| Responds (r : response)
| Fails (e : exn).

(** ** The process and its surroundings *)

(** [os.environ], the requests that have gone out so far (latest first),
    and the provider: what a call comes to may depend on everything asked
    before.  [goes_out] tells of a call that raises whether it got as far
    as sending its request: [httpx.get] raises some exceptions while it
    builds the URL or sets up the client (an [InvalidURL] for an over-long
    query, say), and then nothing is sent. *)
Record world : Type := World {
  environ : gmap string string;
  issued : list request;
  provider : list request → request → reply;
  goes_out : list request → request → bool
}.

(** ** Computations: a result or a raised exception, in a world *)

Inductive outcome (A : Type) : Type :=
| Return (a : A)
| Raise (e : exn).
Arguments Return {A} a.
Arguments Raise {A} e.

#[global] Instance outcome_ret : MRet outcome := λ A a, Return a.
#[global] Instance outcome_bind : MBind outcome := λ A B f o,
  match o with
  | Return a => f a
  | Raise e => Raise e
  end.

Definition M (A : Type) : Type := world → outcome A * world.

#[global] Instance M_ret : MRet M := λ A a w, (Return a, w).
#[global] Instance M_bind : MBind M := λ A B f m w,
  match m w with
  | (Return a, w') => f a w'
  | (Raise e, w') => (Raise e, w')
  end.

Definition raise {A} (e : exn) : M A := λ w, (Raise e, w).

(** A computation that does not touch the world. *)
Definition pure {A} (o : outcome A) : M A := λ w, (o, w).

Definition result {A} (r : outcome A * world) : outcome A := r.1.
Definition after {A} (r : outcome A * world) : world := r.2.

(** ** The runtime calls the tool makes *)

(** [os.getenv(name)] *)
Definition os_getenv (name : string) : M (option string) :=
  λ w, (Return (environ w !! name), w).

(** [httpx.get(url, params=params, timeout=timeout)]: a response has been
    asked for, so its request went out; a call that raises may or may not
    have sent it. *)
Definition httpx_get (url : string) (params : list (string * string))
    (timeout : Q) : M response :=
  λ w,
    let req := Request "GET" url params timeout in
    let w' := World (environ w) (req :: issued w) (provider w) (goes_out w) in
    match provider w (issued w) req with
    | Responds r => (Return r, w')
    | Fails e => (Raise e, if goes_out w (issued w) req then w' else w)
    end.

(** [response.is_success]: a 2xx status. *)
Definition is_success (r : response) : bool :=
  bool_decide (200 ≤ status_code r) && bool_decide (status_code r ≤ 299).

(** [response.raise_for_status()] *)
Definition raise_for_status (r : response) : M response :=
  if is_success r then mret r
  else raise (Exn Exc.HTTPStatusError (status_text r) (Some r)).

(** [response.json()] *)
Definition response_json (r : response) : M value :=
  match body r with
  | Json data => mret data
  | Malformed detail => raise (Exn Exc.JSONDecodeError detail None)
  end.

(** [e.response] *)
Definition attr_response (e : exn) : M response :=
  match exc_response e with
  | Some r => mret r
  | None =>
      raise (Exn Exc.AttributeError
               ("'" +:+ Exc.name (exc_type e) +:+
                "' object has no attribute 'response'") None)
  end.

Fixpoint dict_get (items : list (string * value)) (key : string)
    : option value :=
  match items with
  | [] => None
  | (k, x) :: rest => if bool_decide (k = key) then Some x else dict_get rest key
  end.

(** [obj[key]] with a [str] key. *)
Definition subscript `{PyRepr} (obj : value) (key : string) : outcome value :=
  match obj with
  | VDict items =>
      match dict_get items key with
      | Some x => Return x
      | None => Raise (Exn Exc.KeyError (repr_str key) None)
      end
  | VList _ =>
      Raise (Exn Exc.TypeError
               "list indices must be integers or slices, not str" None)
  | VStr _ =>
      Raise (Exn Exc.TypeError
               "string indices must be integers, not 'str'" None)
  | VNone =>
      Raise (Exn Exc.TypeError "'NoneType' object is not subscriptable" None)
  | VBool _ =>
      Raise (Exn Exc.TypeError "'bool' object is not subscriptable" None)
  | VInt _ =>
      Raise (Exn Exc.TypeError "'int' object is not subscriptable" None)
  | VFloat _ =>
      Raise (Exn Exc.TypeError "'float' object is not subscriptable" None)
  end.

Definition getitem `{PyRepr} (obj : value) (key : string) : M value :=
  pure (subscript obj key).

(** ** [try] ... [except C1 as e: h1] ... [except Cn as e: hn] *)

Definition clause (A : Type) : Type := Exc.cls * (exn → M A).

(** The first clause whose class the exception is an instance of. *)
Definition select {A} (clauses : list (clause A)) (e : exn)
    : option (clause A) :=
  find (λ c, isinstance e c.1) clauses.

(** An exception of the body goes to the selected clause, or on to the
    caller when there is none; what a handler raises is not caught. *)
Definition try_except {A} (body : M A) (clauses : list (clause A)) : M A :=
  λ w,
    match body w with
    | (Return a, w') => (Return a, w')
    | (Raise e, w') =>
        match select clauses e with
        | Some c => c.2 e w'
        | None => (Raise e, w')
        end
    end.

(** ** The tool *)

Definition nl : string := String "010"%char EmptyString.

Definition config_error : string :=
  "Error: Weather API key not configured. Please add WEATHER_API_KEY to your .env file.".

Definition weather_url : string := "http://api.weatherapi.com/v1/current.json".

(** The report of lines 67-71. *)
Definition report (location country temp_c temp_f condition humidity
                   wind_kph : string) : string :=
  "Weather for " +:+ location +:+ ", " +:+ country +:+ ":" +:+ nl +:+
  "🌡️ Temperature: " +:+ temp_c +:+ "°C (" +:+ temp_f +:+ "°F)" +:+ nl +:+
  "☁️ Condition: " +:+ condition +:+ nl +:+
  "💧 Humidity: " +:+ humidity +:+ "%" +:+ nl +:+
  "💨 Wind: " +:+ wind_kph +:+ " km/h".

Definition not_found (city : string) : string :=
  "Sorry, I couldn't find weather data for '" +:+ city +:+
  "'. Please check the city name.".

Definition fetch_error (detail : string) : string :=
  "Error fetching weather: " +:+ detail.

Definition network_error (detail : string) : string :=
  "Network error: Could not connect to weather service. " +:+ detail.

Definition unexpected_error (detail : string) : string :=
  "Unexpected error: " +:+ detail.

(** The body of the [try] statement, lines 49-71. *)
Definition fetch_report `{PyRepr} (api_key city : string) : M string :=
  let url := weather_url in
  let params := [("key", api_key); ("q", city); ("aqi", "no")] in
  response ← httpx_get url params (10 # 1);
  _ ← raise_for_status response;
  data ← response_json response;
  location ← getitem data "location" ≫= λ d, getitem d "name";
  country ← getitem data "location" ≫= λ d, getitem d "country";
  temp_c ← getitem data "current" ≫= λ d, getitem d "temp_c";
  temp_f ← getitem data "current" ≫= λ d, getitem d "temp_f";
  condition ← getitem data "current" ≫= λ d,
              getitem d "condition" ≫= λ d, getitem d "text";
  humidity ← getitem data "current" ≫= λ d, getitem d "humidity";
  wind_kph ← getitem data "current" ≫= λ d, getitem d "wind_kph";
  mret (report (py_str location) (py_str country) (py_str temp_c)
          (py_str temp_f) (py_str condition) (py_str humidity)
          (py_str wind_kph)).

(** [except httpx.HTTPStatusError as e], lines 73-76. *)
Definition on_status_error (city : string) (e : exn) : M string :=
  response ← attr_response e;
  if bool_decide (status_code response = 400) then mret (not_found city)
  else mret (fetch_error (exc_str e)).

(** [except httpx.RequestError as e], lines 77-78. *)
Definition on_request_error (e : exn) : M string :=
  mret (network_error (exc_str e)).

(** [except Exception as e], lines 79-80. *)
Definition on_exception (e : exn) : M string :=
  mret (unexpected_error (exc_str e)).

(** The three clauses in the order of the source. *)
Definition except_clauses (city : string) : list (clause string) :=
  [ (Exc.HTTPStatusError, on_status_error city);
    (Exc.RequestError, on_request_error);
    (Exc.Exception, on_exception) ].

Definition placeholder : string := "your_weather_api_key_here".

(** Lines 43-46 and the [try] statement.  [os.getenv] gives [None] or a
    [str]; [not api_key] holds of [None] and of the empty string. *)
Definition get_weather `{PyRepr} (city : string) : M string :=
  api_key ← os_getenv "WEATHER_API_KEY";
  match api_key with
  | None => mret config_error
  | Some key =>
      if bool_decide (key = EmptyString) || bool_decide (key = placeholder)
      then mret config_error
      else try_except (fetch_report key city) (except_clauses city)
  end.

(** ** The ordered classification the specification asks for

    Same three tests and handlers; the transport-layer test comes first,
    then the HTTP-status one, then the catch-all. *)
Definition classification (city : string) : list (clause string) :=
  [ (Exc.RequestError, on_request_error);
    (Exc.HTTPStatusError, on_status_error city);
    (Exc.Exception, on_exception) ].

Definition get_weather_classified `{PyRepr} (city : string) : M string :=
  api_key ← os_getenv "WEATHER_API_KEY";
  match api_key with
  | None => mret config_error
  | Some key =>
      if bool_decide (key = EmptyString) || bool_decide (key = placeholder)
      then mret config_error
      else try_except (fetch_report key city) (classification city)
  end.

(** ** Sample data *)

(** [repr] on strings of printable ASCII characters other than the quote
    and the backslash, which is all the samples hold. *)
Definition plain_repr : PyRepr := λ s, "'" +:+ s +:+ "'".

Definition paris (country : value) : value :=
  VDict [ ("location", VDict [("name", VStr "Paris"); ("country", country)]);
          ("current",
           VDict [ ("temp_c", VInt 15); ("temp_f", VInt 59);
                   ("condition", VDict [("text", VStr "Partly cloudy")]);
                   ("humidity", VInt 70); ("wind_kph", VInt 12) ]) ].

(** A world with the given key (if any) whose provider always gives the
    same answer, every request going out. *)
Definition sample_world (key : option string) (answer : reply) : world :=
  World (match key with
         | Some k => {[ "WEATHER_API_KEY" := k ]}
         | None => ∅
         end) [] (λ _ _, answer) (λ _ _, true).

Definition paris_world : world :=
  sample_world (Some "k3y")
    (Responds (Response 200 "200 OK" (Json (paris (VStr "France"))))).

(** The same body without the country. *)
Definition no_country_world : world :=
  sample_world (Some "k3y")
    (Responds
       (Response 200 "200 OK"
          (Json (VDict [("location", VDict [("name", VStr "Paris")])])))).

(** A 2xx response whose body is not JSON. *)
Definition garbled_world : world :=
  sample_world (Some "k3y")
    (Responds (Response 200 "200 OK"
                 (Malformed "Expecting value: line 1 column 1 (char 0)"))).

Definition bad_request_world : world :=
  sample_world (Some "k3y")
    (Responds (Response 400 "Client error '400 Bad Request'"
                 (Malformed "Expecting value"))).

Definition forbidden_world : world :=
  sample_world (Some "k3y")
    (Responds (Response 403 "Client error '403 Forbidden'"
                 (Malformed "Expecting value"))).

Definition refused_world : world :=
  sample_world (Some "k3y")
    (Fails (Exn Exc.ConnectError "[Errno 111] Connection refused" None)).

Definition placeholder_world : world :=
  sample_world (Some "your_weather_api_key_here")
    (Fails (Exn Exc.ConnectError "[Errno 111] Connection refused" None)).

Definition empty_key_world : world :=
  sample_world (Some EmptyString)
    (Fails (Exn Exc.ConnectError "[Errno 111] Connection refused" None)).

(** The Paris body with fields the tool does not read. *)
Definition paris_verbose : value :=
  VDict [ ("location",
           VDict [ ("name", VStr "Paris"); ("region", VStr "Ile-de-France");
                   ("country", VStr "France"); ("lat", VFloat "48.87") ]);
          ("current",
           VDict [ ("last_updated", VStr "2025-01-01 12:00");
                   ("temp_c", VInt 15); ("temp_f", VInt 59);
                   ("condition",
                    VDict [("text", VStr "Partly cloudy"); ("code", VInt 1003)]);
                   ("humidity", VInt 70); ("wind_kph", VInt 12);
                   ("uv", VInt 3) ]) ].

Definition paris_verbose_world : world :=
  sample_world (Some "k3y") (Responds (Response 200 "200 OK" (Json paris_verbose))).

(** The same provider seen with another key. *)
Definition other_key_world : world :=
  sample_world (Some "an0ther")
    (Responds (Response 200 "200 OK" (Json (paris (VStr "France"))))).

(** A body with neither [country] nor [current]. *)
Definition empty_object_world : world :=
  sample_world (Some "k3y") (Responds (Response 200 "200 OK" (Json (VDict [])))).

Definition null_body_world : world :=
  sample_world (Some "k3y") (Responds (Response 200 "200 OK" (Json VNone))).

(** A world in which [httpx.get] refuses the URL before sending
    anything. *)
Definition invalid_url_world : world :=
  World {[ "WEATHER_API_KEY" := "k3y" ]} []
    (λ _ _, Fails (Exn Exc.InvalidURL "URL component 'query' too long" None))
    (λ _ _, false).

(** A city of 70000 characters: the query is longer than [httpx] accepts. *)
Definition long_city : string :=
  String.concat EmptyString (replicate (70 * 1000)%nat "q").

Definition interrupted_world : world :=
  sample_world (Some "k3y") (Fails (Exn Exc.KeyboardInterrupt EmptyString None)).

(** ** Vocabulary of the statements *)

(** [sub] occurs in [s]. *)
Definition contains (sub s : string) : Prop :=
  ∃ pre post, s = pre +:+ sub +:+ post.

(** A key that passes the guard of line 45. *)
Definition configured (key : string) : Prop :=
  key ≠ EmptyString ∧ key ≠ placeholder.

(** [GET http://api.weatherapi.com/v1/current.json?key=<key>&q=<city>&aqi=no]
    with a timeout of ten seconds. *)
Definition weather_request (key city : string) : request :=
  {| req_method := "GET";
     req_url := "http://api.weatherapi.com/v1/current.json";
     req_params := [("key", key); ("q", city); ("aqi", "no")];
     req_timeout := 10 # 1 |}.

(** The world once [req] has gone out. *)
Definition sent (req : request) (w : world) : world :=
  World (environ w) (req :: issued w) (provider w) (goes_out w).

(** Whether a call with [req] sends it: it does when it returns a response,
    and when it raises after sending. *)
Definition dispatched (req : request) (w : world) : bool :=
  match provider w (issued w) req with
  | Responds _ => true
  | Fails _ => goes_out w (issued w) req
  end.

(** The world after a call with [req]. *)
Definition after_call (req : request) (w : world) : world :=
  if dispatched req w then sent req w else w.

(** [data[k1][k2]...] *)
Fixpoint lookup_path `{PyRepr} (data : value) (path : list string)
    : outcome value :=
  match path with
  | [] => Return data
  | k :: rest => subscript data k ≫= λ d, lookup_path d rest
  end.

(** The fields the tool reads, in the order it reads them. *)
Definition expected_fields : list (list string) :=
  [ ["location"; "name"]; ["location"; "country"];
    ["current"; "temp_c"]; ["current"; "temp_f"];
    ["current"; "condition"; "text"];
    ["current"; "humidity"]; ["current"; "wind_kph"] ].

(** What lines 59-71 make of the decoded body. *)
Definition rendered `{PyRepr} (data : value) : outcome string :=
  location ← lookup_path data ["location"; "name"];
  country ← lookup_path data ["location"; "country"];
  temp_c ← lookup_path data ["current"; "temp_c"];
  temp_f ← lookup_path data ["current"; "temp_f"];
  condition ← lookup_path data ["current"; "condition"; "text"];
  humidity ← lookup_path data ["current"; "humidity"];
  wind_kph ← lookup_path data ["current"; "wind_kph"];
  Return (report (py_str location) (py_str country) (py_str temp_c)
            (py_str temp_f) (py_str condition) (py_str humidity)
            (py_str wind_kph)).

(** The outcome of the [try] body is a function of the provider's answer. *)
Definition body_outcome `{PyRepr} (answer : reply) : outcome string :=
  match answer with
  | Fails e => Raise e
  | Responds r =>
      if is_success r then
        match body r with
        | Json data => rendered data
        | Malformed detail => Raise (Exn Exc.JSONDecodeError detail None)
        end
      else Raise (Exn Exc.HTTPStatusError (status_text r) (Some r))
  end.

(** An error as [httpx] and the interpreter build them: an instance of
    [Exception], carrying its response when it is an [HTTPStatusError]. *)
Definition well_formed (e : exn) : Prop :=
  isinstance e Exc.Exception = true ∧
  (isinstance e Exc.HTTPStatusError = true → is_Some (exc_response e)).

(** The world after a series of earlier invocations. *)
Fixpoint invoke_all `{PyRepr} (cities : list string) (w : world) : world :=
  match cities with
  | [] => w
  | city :: rest => invoke_all rest (after (get_weather city w))
  end.

(** The exception of the first lookup that fails, going through the
    lookups in order. *)
Fixpoint first_raise (lookups : list (outcome value)) : option exn :=
  match lookups with
  | [] => None
  | Return _ :: rest => first_raise rest
  | Raise e :: _ => Some e
  end.

(** A JSON object, that is a [dict]. *)
Definition is_object (v : value) : bool :=
  match v with
  | VDict _ => true
  | _ => false
  end.

(** ** Classes *)

(** A goal about one class of the table is settled by evaluation; a derived
    class is left to the induction. *)
Ltac by_class_table :=
  lazymatch goal with
  | |- context [Exc.Subclass] => fail
  | |- _ => vm_compute; congruence
  end.

Lemma same_refl c : Exc.same c c = true.
Proof.
  induction c; try reflexivity.
  simpl. rewrite String.eqb_refl. exact IHc.
Qed.

Lemma issubclass_refl c : Exc.issubclass c c = true.
Proof. destruct c; unfold Exc.issubclass; rewrite same_refl; reflexivity. Qed.

Lemma status_not_request c :
  Exc.issubclass c Exc.HTTPStatusError = true →
  Exc.issubclass c Exc.RequestError = false.
Proof.
  induction c; try by_class_table.
  simpl. intros Hs. apply IHc in Hs. exact Hs.
Qed.

Lemma status_is_exception c :
  Exc.issubclass c Exc.HTTPStatusError = true →
  Exc.issubclass c Exc.Exception = true.
Proof.
  induction c; try by_class_table.
  simpl. exact IHc.
Qed.

Lemma request_is_exception c :
  Exc.issubclass c Exc.RequestError = true →
  Exc.issubclass c Exc.Exception = true.
Proof.
  induction c; try by_class_table.
  simpl. exact IHc.
Qed.

(** ** Which clause an exception reaches *)

Lemma select_status city e :
  isinstance e Exc.HTTPStatusError = true →
  select (except_clauses city) e
  = Some (Exc.HTTPStatusError, on_status_error city).
Proof. intros Hs. unfold select, except_clauses. simpl. rewrite Hs. reflexivity. Qed.

Lemma select_request city e :
  isinstance e Exc.RequestError = true →
  select (except_clauses city) e = Some (Exc.RequestError, on_request_error).
Proof.
  intros Hr. unfold select, except_clauses. simpl. rewrite Hr.
  destruct (isinstance e Exc.HTTPStatusError) eqn:Hs; [|reflexivity].
  apply status_not_request in Hs. unfold isinstance in Hr. congruence.
Qed.

Lemma select_exception city e :
  isinstance e Exc.HTTPStatusError = false →
  isinstance e Exc.RequestError = false →
  isinstance e Exc.Exception = true →
  select (except_clauses city) e = Some (Exc.Exception, on_exception).
Proof.
  intros Hs Hr He. unfold select, except_clauses. simpl.
  rewrite Hs, Hr, He. reflexivity.
Qed.

Lemma select_none city e :
  isinstance e Exc.Exception = false → select (except_clauses city) e = None.
Proof.
  intros He. unfold select, except_clauses. simpl. rewrite He.
  destruct (isinstance e Exc.HTTPStatusError) eqn:Hs.
  { apply status_is_exception in Hs. unfold isinstance in He. congruence. }
  destruct (isinstance e Exc.RequestError) eqn:Hr; [|reflexivity].
  apply request_is_exception in Hr. unfold isinstance in He. congruence.
Qed.

(** ** The guard on the key *)

Section Guard.
Context `{PyRepr}.
Variables (city : string) (w : world).

Lemma get_weather_unset :
  environ w !! "WEATHER_API_KEY" = None →
  get_weather city w = (Return config_error, w).
Proof.
  intros Hk. unfold get_weather, mbind, M_bind, os_getenv.
  rewrite Hk. reflexivity.
Qed.

Lemma get_weather_empty :
  environ w !! "WEATHER_API_KEY" = Some EmptyString →
  get_weather city w = (Return config_error, w).
Proof.
  intros Hk. unfold get_weather, mbind, M_bind, os_getenv.
  rewrite Hk. reflexivity.
Qed.

Lemma get_weather_placeholder :
  environ w !! "WEATHER_API_KEY" = Some placeholder →
  get_weather city w = (Return config_error, w).
Proof.
  intros Hk. unfold get_weather, mbind, M_bind, os_getenv.
  rewrite Hk. reflexivity.
Qed.

Lemma get_weather_configured key :
  environ w !! "WEATHER_API_KEY" = Some key →
  configured key →
  get_weather city w
  = try_except (fetch_report key city) (except_clauses city) w.
Proof.
  intros Hk [Hne Hnp]. unfold get_weather, mbind, M_bind, os_getenv.
  rewrite Hk.
  rewrite (bool_decide_eq_false_2 _ Hne), (bool_decide_eq_false_2 _ Hnp).
  reflexivity.
Qed.

Lemma get_weather_classified_configured key :
  environ w !! "WEATHER_API_KEY" = Some key →
  configured key →
  get_weather_classified city w
  = try_except (fetch_report key city) (classification city) w.
Proof.
  intros Hk [Hne Hnp].
  unfold get_weather_classified, mbind, M_bind, os_getenv.
  rewrite Hk.
  rewrite (bool_decide_eq_false_2 _ Hne), (bool_decide_eq_false_2 _ Hnp).
  reflexivity.
Qed.
End Guard.

(** ** What the [try] body does, by the provider's answer *)

Lemma subscript_error `{PyRepr} obj key e :
  subscript obj key = Raise e →
  (exc_type e = Exc.KeyError ∨ exc_type e = Exc.TypeError).
Proof.
  destruct obj; simpl; try (intros [= <-]; simpl; auto).
  destruct (dict_get items key); intros [= <-]; simpl; auto.
Qed.

Lemma lookup_path_error `{PyRepr} path : ∀ data e,
  lookup_path data path = Raise e →
  (exc_type e = Exc.KeyError ∨ exc_type e = Exc.TypeError).
Proof.
  induction path as [|k rest IH]; intros data e; simpl; [discriminate|].
  unfold mbind, outcome_bind.
  destruct (subscript data k) as [d|e'] eqn:Hd.
  - apply IH.
  - intros [= <-]. eapply subscript_error, Hd.
Qed.

Section Body.
Context `{PyRepr}.
Variables (key city : string) (w : world).

Let req := weather_request key city.

Lemma fetch_report_fails e :
  provider w (issued w) req = Fails e →
  fetch_report key city w = (Raise e, after_call req w).
Proof.
  intros Hp. unfold fetch_report, mbind, M_bind, httpx_get.
  unfold weather_url. fold (weather_request key city).
  fold req. unfold after_call, dispatched. rewrite Hp.
  destruct (goes_out w (issued w) req); reflexivity.
Qed.

Lemma fetch_report_status r :
  provider w (issued w) req = Responds r →
  is_success r = false →
  fetch_report key city w
  = (Raise (Exn Exc.HTTPStatusError (status_text r) (Some r)), sent req w).
Proof.
  intros Hp Hs. unfold fetch_report, mbind, M_bind, httpx_get.
  unfold weather_url. fold (weather_request key city).
  fold req. rewrite Hp. unfold raise_for_status. rewrite Hs. reflexivity.
Qed.

Lemma fetch_report_malformed r detail :
  provider w (issued w) req = Responds r →
  is_success r = true →
  body r = Malformed detail →
  fetch_report key city w
  = (Raise (Exn Exc.JSONDecodeError detail None), sent req w).
Proof.
  intros Hp Hs Hb. unfold fetch_report, mbind, M_bind, httpx_get.
  unfold weather_url. fold (weather_request key city).
  fold req. rewrite Hp. unfold raise_for_status, response_json.
  rewrite Hs, Hb. reflexivity.
Qed.

Lemma fetch_report_json r data :
  provider w (issued w) req = Responds r →
  is_success r = true →
  body r = Json data →
  fetch_report key city w = (rendered data, sent req w).
Proof.
  intros Hp Hs Hb. unfold fetch_report, mbind, M_bind, httpx_get.
  unfold weather_url. fold (weather_request key city).
  fold req. rewrite Hp. unfold raise_for_status, response_json.
  rewrite Hs, Hb. unfold mret, M_ret, rendered, getitem, pure.
  unfold lookup_path, mbind, outcome_bind.
  destruct (subscript data "location") as [loc|]; [|reflexivity].
  destruct (subscript loc "name"); [|reflexivity].
  destruct (subscript loc "country"); [|reflexivity].
  destruct (subscript data "current") as [cur|]; [|reflexivity].
  destruct (subscript cur "temp_c"); [|reflexivity].
  destruct (subscript cur "temp_f"); [|reflexivity].
  destruct (subscript cur "condition") as [cond|]; [|reflexivity].
  destruct (subscript cond "text"); [|reflexivity].
  destruct (subscript cur "humidity"); [|reflexivity].
  destruct (subscript cur "wind_kph"); reflexivity.
Qed.
End Body.

Lemma after_call_responds req w r :
  provider w (issued w) req = Responds r → after_call req w = sent req w.
Proof. intros Hp. unfold after_call, dispatched. rewrite Hp. reflexivity. Qed.

Lemma after_call_cases req w :
  after_call req w = w ∨ after_call req w = sent req w.
Proof. unfold after_call. destruct (dispatched req w); auto. Qed.

Lemma fetch_report_eq `{PyRepr} key city w :
  fetch_report key city w
  = (body_outcome (provider w (issued w) (weather_request key city)),
     after_call (weather_request key city) w).
Proof.
  unfold body_outcome.
  destruct (provider w (issued w) (weather_request key city)) as [r|e] eqn:Hp.
  - rewrite (after_call_responds _ _ _ Hp). destruct (is_success r) eqn:Hs.
    + destruct (body r) as [data|detail] eqn:Hb.
      * eapply fetch_report_json; eauto.
      * eapply fetch_report_malformed; eauto.
    + eapply fetch_report_status; eauto.
  - eapply fetch_report_fails; eauto.
Qed.

(** ** The handlers *)

Lemma on_status_error_response city e r w :
  exc_response e = Some r →
  on_status_error city e w
  = (Return (if bool_decide (status_code r = 400) then not_found city
             else fetch_error (exc_str e)), w).
Proof.
  intros Hr. unfold on_status_error, mbind, M_bind, attr_response.
  rewrite Hr. simpl. destruct (bool_decide _); reflexivity.
Qed.

Lemma selected_clause city e c :
  select (except_clauses city) e = Some c →
  c = (Exc.HTTPStatusError, on_status_error city)
  ∨ c = (Exc.RequestError, on_request_error)
  ∨ c = (Exc.Exception, on_exception).
Proof.
  unfold select. intros Hc. apply find_some in Hc as [Hin _].
  simpl in Hin. intuition.
Qed.

Lemma clause_keeps_world city e c w :
  select (except_clauses city) e = Some c → after (c.2 e w) = w.
Proof.
  intros Hc. apply selected_clause in Hc as [-> | [-> | ->]]; simpl;
    [|reflexivity..].
  unfold on_status_error, mbind, M_bind, attr_response.
  destruct (exc_response e); simpl; [|reflexivity].
  destruct (bool_decide _); reflexivity.
Qed.

Lemma clause_ignores_world city e c w1 w2 :
  select (except_clauses city) e = Some c →
  result (c.2 e w1) = result (c.2 e w2).
Proof.
  intros Hc. apply selected_clause in Hc as [-> | [-> | ->]]; simpl;
    [|reflexivity..].
  unfold on_status_error, mbind, M_bind, attr_response.
  destruct (exc_response e); simpl; [|reflexivity].
  destruct (bool_decide _); reflexivity.
Qed.

Lemma well_formed_handled city e w :
  well_formed e →
  ∃ s, (match select (except_clauses city) e with
        | Some c => c.2 e w
        | None => (Raise e, w)
        end) = (Return s, w).
Proof.
  intros [He Hr].
  destruct (isinstance e Exc.HTTPStatusError) eqn:Hs.
  - destruct (Hr eq_refl) as [r Hresp].
    rewrite (select_status _ _ Hs). simpl.
    rewrite (on_status_error_response _ _ _ _ Hresp). eauto.
  - destruct (isinstance e Exc.RequestError) eqn:Hq.
    + rewrite (select_request _ _ Hq). simpl. eauto.
    + rewrite (select_exception _ _ Hs Hq He). simpl. eauto.
Qed.

Lemma body_outcome_well_formed `{PyRepr} answer e :
  (∀ e', answer = Fails e' → well_formed e') →
  body_outcome answer = Raise e → well_formed e.
Proof.
  intros Hwf. unfold body_outcome. destruct answer as [r|e'].
  - destruct (is_success r).
    + destruct (body r) as [data|detail].
      * unfold rendered, mbind, outcome_bind. intros Hrend.
        assert (exc_type e = Exc.KeyError ∨ exc_type e = Exc.TypeError)
          as Hty.
        { repeat match type of Hrend with
                 | match ?o with _ => _ end = _ =>
                     let Ho := fresh "Ho" in
                     destruct o eqn:Ho;
                     [| injection Hrend as <-; eapply lookup_path_error, Ho]
                 end.
          discriminate. }
        unfold well_formed, isinstance.
        destruct Hty as [-> | ->]; split; try reflexivity;
          vm_compute; discriminate.
      * intros [= <-]. split; [reflexivity | vm_compute; discriminate].
    + intros [= <-]. split; [reflexivity | simpl; eauto].
  - intros [= <-]. apply Hwf. reflexivity.
Qed.

(** Membership in the list of expected fields. *)
Ltac in_expected_fields :=
  unfold expected_fields;
  repeat first [apply list_elem_of_here | apply list_elem_of_further].

Lemma lookup_error_unexpected city e w :
  exc_type e = Exc.KeyError ∨ exc_type e = Exc.TypeError →
  (match select (except_clauses city) e with
   | Some c => c.2 e w
   | None => (Raise e, w)
   end) = (Return (unexpected_error (exc_str e)), w).
Proof.
  intros Hty. rewrite select_exception; [reflexivity|..];
    unfold isinstance; destruct Hty as [-> | ->]; reflexivity.
Qed.

Lemma get_weather_after `{PyRepr} city w :
  after (get_weather city w) = w
  ∨ ∃ key, configured key
           ∧ after (get_weather city w) = sent (weather_request key city) w.
Proof.
  destruct (environ w !! "WEATHER_API_KEY") as [key|] eqn:Hk.
  2: { left. rewrite get_weather_unset by done. reflexivity. }
  destruct (decide (key = EmptyString)) as [->|Hne].
  { left. rewrite get_weather_empty by done. reflexivity. }
  destruct (decide (key = placeholder)) as [->|Hnp].
  { left. rewrite get_weather_placeholder by done. reflexivity. }
  assert (after (get_weather city w) = after_call (weather_request key city) w)
    as ->.
  { rewrite (get_weather_configured _ _ key) by done.
    unfold try_except. rewrite fetch_report_eq.
    destruct (body_outcome _) as [s|e]; [reflexivity|].
    destruct (select (except_clauses city) e) as [c|] eqn:Hc; [|reflexivity].
    apply (clause_keeps_world _ _ _ _ Hc). }
  destruct (after_call_cases (weather_request key city) w) as [-> | ->];
    [left; reflexivity | right; exists key; split; done].
Qed.

Lemma invoke_all_environ `{PyRepr} cities : ∀ w,
  environ (invoke_all cities w) = environ w.
Proof.
  induction cities as [|city rest IH]; intros w; simpl; [reflexivity|].
  rewrite IH.
  destruct (get_weather_after city w) as [-> | (key & _ & ->)]; reflexivity.
Qed.

Lemma select_classification city e :
  select (except_clauses city) e = select (classification city) e.
Proof.
  unfold select, except_clauses, classification. simpl.
  destruct (isinstance e Exc.HTTPStatusError) eqn:Hs;
    destruct (isinstance e Exc.RequestError) eqn:Hr; try reflexivity.
  apply status_not_request in Hs. unfold isinstance in Hr. congruence.
Qed.

Lemma append_empty_r (s : string) : s +:+ EmptyString = s.
Proof.
  induction s as [|a s IH]; [reflexivity|].
  change (String a s +:+ EmptyString) with (String a (s +:+ EmptyString)).
  congruence.
Qed.

(** ** The claims *)

(** C1. Whatever the city, the environment and the provider's answer, as
    long as what the provider raises is a well-formed error (an instance of
    [Exception], as every configuration, HTTP status, transport, parsing and
    formatting failure is), [get_weather] returns a string and raises
    nothing. *)
Theorem get_weather_returns `{PyRepr} (city : string) (w : world) :
  (∀ key e,
     provider w (issued w) (weather_request key city) = Fails e →
     well_formed e) →
  ∃ s, result (get_weather city w) = Return s.
Proof.
  intros Hwf.
  destruct (environ w !! "WEATHER_API_KEY") as [key|] eqn:Hk.
  2: { rewrite get_weather_unset by done. eauto. }
  destruct (decide (key = EmptyString)) as [->|Hne].
  { rewrite get_weather_empty by done. eauto. }
  destruct (decide (key = placeholder)) as [->|Hnp].
  { rewrite get_weather_placeholder by done. eauto. }
  rewrite (get_weather_configured _ _ key) by done.
  unfold try_except. rewrite fetch_report_eq.
  destruct (body_outcome _) as [s|e] eqn:Hb; [eauto|].
  eapply body_outcome_well_formed in Hb; [|intros e' He'; eapply Hwf, He'].
  destruct (well_formed_handled city e
              (after_call (weather_request key city) w) Hb) as [s Hs].
  rewrite Hs. eauto.
Qed.

(** C2. When [WEATHER_API_KEY] is unset or holds the placeholder
    [your_weather_api_key_here], [get_weather] returns the fixed
    configuration-error string for every city, and no request goes out. *)
Theorem unconfigured_key_short_circuits `{PyRepr} (city : string) (w : world) :
  environ w !! "WEATHER_API_KEY" = None
  ∨ environ w !! "WEATHER_API_KEY" = Some "your_weather_api_key_here" →
  result (get_weather city w)
  = Return "Error: Weather API key not configured. Please add WEATHER_API_KEY to your .env file."
  ∧ issued (after (get_weather city w)) = issued w.
Proof.
  intros [Hk | Hk].
  - rewrite get_weather_unset by done. split; reflexivity.
  - rewrite get_weather_placeholder by done. split; reflexivity.
Qed.

(** C3. On a 2xx response whose decoded body holds the seven expected
    fields, [get_weather] returns the report of lines 67-71 with exactly
    those values substituted.  In particular, for the city Paris and a body
    with name Paris, temp_c 15, temp_f 59, condition text Partly cloudy,
    humidity 70 and wind_kph 12, the report shows Paris and the five
    values, whatever the country field holds. *)
Theorem success_renders_report `{PyRepr} :
  (∀ (city key : string) (w : world) (r : response) (data : value)
     (location country temp_c temp_f condition humidity wind_kph : value),
     environ w !! "WEATHER_API_KEY" = Some key →
     configured key →
     provider w (issued w) (weather_request key city) = Responds r →
     is_success r = true →
     body r = Json data →
     lookup_path data ["location"; "name"] = Return location →
     lookup_path data ["location"; "country"] = Return country →
     lookup_path data ["current"; "temp_c"] = Return temp_c →
     lookup_path data ["current"; "temp_f"] = Return temp_f →
     lookup_path data ["current"; "condition"; "text"] = Return condition →
     lookup_path data ["current"; "humidity"] = Return humidity →
     lookup_path data ["current"; "wind_kph"] = Return wind_kph →
     result (get_weather city w)
     = Return
         ("Weather for " +:+ py_str location +:+ ", " +:+ py_str country +:+
          ":" +:+ nl +:+
          "🌡️ Temperature: " +:+ py_str temp_c +:+ "°C (" +:+
          py_str temp_f +:+ "°F)" +:+ nl +:+
          "☁️ Condition: " +:+ py_str condition +:+ nl +:+
          "💧 Humidity: " +:+ py_str humidity +:+ "%" +:+ nl +:+
          "💨 Wind: " +:+ py_str wind_kph +:+ " km/h"))
  ∧
  (∀ (key : string) (w : world) (r : response) (country : value),
     environ w !! "WEATHER_API_KEY" = Some key →
     configured key →
     provider w (issued w) (weather_request key "Paris") = Responds r →
     is_success r = true →
     body r = Json (paris country) →
     result (get_weather "Paris" w)
     = Return
         ("Weather for Paris, " +:+ py_str country +:+ ":" +:+ nl +:+
          "🌡️ Temperature: 15°C (59°F)" +:+ nl +:+
          "☁️ Condition: Partly cloudy" +:+ nl +:+
          "💧 Humidity: 70%" +:+ nl +:+
          "💨 Wind: 12 km/h")).
Proof.
  split.
  - intros city key w r data location country temp_c temp_f condition
      humidity wind_kph Hk Hc Hp Hs Hb H1 H2 H3 H4 H5 H6 H7.
    rewrite (get_weather_configured _ _ key) by done.
    unfold try_except.
    rewrite (fetch_report_json _ _ _ _ _ Hp Hs Hb).
    unfold rendered. rewrite H1, H2, H3, H4, H5, H6, H7. reflexivity.
  - intros key w r country Hk Hc Hp Hs Hb.
    rewrite (get_weather_configured _ _ key) by done.
    unfold try_except.
    rewrite (fetch_report_json _ _ _ _ _ Hp Hs Hb).
    reflexivity.
Qed.

(** C4. On a response with status 400 the result names the requested city
    and says its weather data could not be found; on any other non-2xx
    status the result carries the status text of the error, and differs
    from the message for 400 whatever the city. *)
Theorem status_error_messages `{PyRepr} (city key : string) (w : world)
    (r : response) :
  environ w !! "WEATHER_API_KEY" = Some key →
  configured key →
  provider w (issued w) (weather_request key city) = Responds r →
  is_success r = false →
  (status_code r = 400 →
   result (get_weather city w)
   = Return ("Sorry, I couldn't find weather data for '" +:+ city +:+
             "'. Please check the city name.")
   ∧ contains city (not_found city))
  ∧
  (status_code r ≠ 400 →
   result (get_weather city w)
   = Return ("Error fetching weather: " +:+ status_text r)
   ∧ contains (status_text r) (fetch_error (status_text r))
   ∧ ∀ c, fetch_error (status_text r) ≠ not_found c).
Proof.
  intros Hk Hc Hp Hs.
  rewrite (get_weather_configured _ _ key) by done.
  unfold try_except. rewrite (fetch_report_status _ _ _ _ Hp Hs).
  rewrite select_status by reflexivity. simpl.
  rewrite (on_status_error_response _ _ r) by reflexivity. simpl.
  split; intros H4.
  - rewrite bool_decide_eq_true_2 by done. split; [reflexivity|].
    eexists _, _. reflexivity.
  - rewrite bool_decide_eq_false_2 by done. split; [reflexivity|]. split.
    + exists "Error fetching weather: ", EmptyString.
      unfold fetch_error. rewrite append_empty_r. reflexivity.
    + intros c. unfold fetch_error, not_found. cbv [String.append].
      discriminate.
Qed.

(** C5. When the call fails at the transport level, before any response
    (an instance of [httpx.RequestError]: DNS, refused connection,
    timeout), the result is the network-error message followed by the text
    of the failure, and it is neither of the two messages for an HTTP
    status. *)
Theorem transport_failure_message `{PyRepr} (city key : string) (w : world)
    (e : exn) :
  environ w !! "WEATHER_API_KEY" = Some key →
  configured key →
  provider w (issued w) (weather_request key city) = Fails e →
  isinstance e Exc.RequestError = true →
  result (get_weather city w)
  = Return ("Network error: Could not connect to weather service. " +:+
            exc_str e)
  ∧ contains "Network error" (network_error (exc_str e))
  ∧ contains (exc_str e) (network_error (exc_str e))
  ∧ ∀ c d, network_error (exc_str e) ≠ not_found c
           ∧ network_error (exc_str e) ≠ fetch_error d.
Proof.
  intros Hk Hc Hp Hr.
  rewrite (get_weather_configured _ _ key) by done.
  unfold try_except. rewrite (fetch_report_fails _ _ _ _ Hp).
  rewrite (select_request _ _ Hr). simpl.
  split; [reflexivity|]. split; [|split].
  - exists EmptyString. eexists. reflexivity.
  - exists "Network error: Could not connect to weather service. ",
      EmptyString.
    unfold network_error. rewrite append_empty_r. reflexivity.
  - intros c d. unfold network_error, not_found, fetch_error.
    cbv [String.append]. split; discriminate.
Qed.

(** C6. On a 2xx response whose body does not decode, or whose decoded body
    lacks one of the expected fields, [get_weather] returns the
    unexpected-error message followed by the detail of the failure: the
    decoder's, or that of a lookup that failed. *)
Theorem malformed_body_message `{PyRepr} (city key : string) (w : world)
    (r : response) :
  environ w !! "WEATHER_API_KEY" = Some key →
  configured key →
  provider w (issued w) (weather_request key city) = Responds r →
  is_success r = true →
  (∀ detail, body r = Malformed detail →
     result (get_weather city w) = Return ("Unexpected error: " +:+ detail))
  ∧
  (∀ data, body r = Json data →
     (∃ path e, path ∈ expected_fields ∧ lookup_path data path = Raise e) →
     ∃ path e, path ∈ expected_fields ∧ lookup_path data path = Raise e
               ∧ result (get_weather city w)
                 = Return ("Unexpected error: " +:+ exc_str e)).
Proof.
  intros Hk Hc Hp Hs.
  rewrite (get_weather_configured _ _ key) by done.
  unfold try_except. split.
  - intros detail Hb. rewrite (fetch_report_malformed _ _ _ _ _ Hp Hs Hb).
    reflexivity.
  - intros data Hb (path & e & Hin & Hmiss).
    rewrite (fetch_report_json _ _ _ _ _ Hp Hs Hb).
    unfold rendered, mbind, outcome_bind.
    repeat match goal with
           | |- context [match lookup_path data ?p with _ => _ end] =>
               let Ho := fresh "Ho" in
               let e' := fresh "e" in
               destruct (lookup_path data p) as [?|e'] eqn:Ho;
               [| exists p, e'; split; [in_expected_fields|]; split; [exact Ho|];
                  rewrite lookup_error_unexpected
                    by (eapply lookup_path_error, Ho);
                  reflexivity ]
           end.
    exfalso. unfold expected_fields in Hin.
    repeat (apply elem_of_cons in Hin as [-> | Hin]; [congruence|]).
    apply elem_of_nil in Hin. exact Hin.
Qed.

(** C7, as the code has it. With a configured key, one call of
    [get_weather] makes one call of [httpx.get]: a GET to
    http://api.weatherapi.com/v1/current.json with the parameters key, q and
    aqi=no, in this order, and a timeout of ten seconds.  When that call
    sends its request (it returns a response, or raises after sending),
    exactly this one request has gone out; when it raises before sending
    anything, none has. *)
Theorem one_request_when_sent `{PyRepr} (city key : string) (w : world) :
  environ w !! "WEATHER_API_KEY" = Some key →
  configured key →
  (dispatched (weather_request key city) w = true →
   issued (after (get_weather city w))
   = {| req_method := "GET";
        req_url := "http://api.weatherapi.com/v1/current.json";
        req_params := [("key", key); ("q", city); ("aqi", "no")];
        req_timeout := 10 # 1 |} :: issued w)
  ∧ (dispatched (weather_request key city) w = false →
     issued (after (get_weather city w)) = issued w).
Proof.
  intros Hk Hc.
  assert (after (get_weather city w) = after_call (weather_request key city) w)
    as ->.
  { rewrite (get_weather_configured _ _ key) by done.
    unfold try_except. rewrite fetch_report_eq.
    destruct (body_outcome _) as [s|e]; [reflexivity|].
    destruct (select (except_clauses city) e) as [c|] eqn:Hsel;
      [|reflexivity].
    apply (clause_keeps_world _ _ _ _ Hsel). }
  unfold after_call. split; intros ->; reflexivity.
Qed.

(** C7 as it is written fails on the code: with a configured key and a city
    too long for a URL, [httpx.get] raises before sending and no request
    goes out. *)
Lemma one_request_issued_counterexample :
  ¬ (∀ (H : PyRepr) (city key : string) (w : world),
       environ w !! "WEATHER_API_KEY" = Some key →
       configured key →
       issued (after (get_weather city w))
       = {| req_method := "GET";
            req_url := "http://api.weatherapi.com/v1/current.json";
            req_params := [("key", key); ("q", city); ("aqi", "no")];
            req_timeout := 10 # 1 |} :: issued w).
Proof.
  intros Hall.
  specialize (Hall plain_repr long_city "k3y" invalid_url_world eq_refl).
  assert (issued (after (@get_weather plain_repr long_city invalid_url_world))
          = []) as Hnone by reflexivity.
  rewrite Hnone in Hall. specialize (Hall ltac:(split; discriminate)).
  discriminate Hall.
Qed.

(** C8. The order of the source (HTTP status, then transport, then the
    catch-all) and the order of the specification (transport, then HTTP
    status, then the catch-all) send every exception to the same clause,
    and the tool computes the same under both. *)
Theorem classification_order_irrelevant `{PyRepr} :
  (∀ city e, select (classification city) e = select (except_clauses city) e)
  ∧ (∀ city w, get_weather_classified city w = get_weather city w).
Proof.
  split.
  - intros city e. symmetry. apply select_classification.
  - intros city w.
    destruct (environ w !! "WEATHER_API_KEY") as [key|] eqn:Hk.
    2: { unfold get_weather_classified, get_weather, mbind, M_bind, os_getenv.
         rewrite Hk. reflexivity. }
    destruct (decide (key = EmptyString)) as [->|Hne].
    { unfold get_weather_classified, get_weather, mbind, M_bind, os_getenv.
      rewrite Hk. reflexivity. }
    destruct (decide (key = placeholder)) as [->|Hnp].
    { unfold get_weather_classified, get_weather, mbind, M_bind, os_getenv.
      rewrite Hk. reflexivity. }
    rewrite (get_weather_configured _ _ key) by done.
    rewrite (get_weather_classified_configured _ _ key) by done.
    unfold try_except. destruct (fetch_report key city w) as [[s|e] w'];
      [reflexivity|].
    rewrite select_classification. reflexivity.
Qed.

(** C9. The result of an invocation is decided by the city, the value of
    [WEATHER_API_KEY] and the provider's answer to this invocation's
    request; the invocations that came before leave no trace in it. *)
Theorem no_state_across_calls `{PyRepr} (city : string)
    (earlier1 earlier2 : list string) (w1 w2 : world) :
  environ w1 !! "WEATHER_API_KEY" = environ w2 !! "WEATHER_API_KEY" →
  (∀ key,
     provider (invoke_all earlier1 w1) (issued (invoke_all earlier1 w1))
       (weather_request key city)
     = provider (invoke_all earlier2 w2) (issued (invoke_all earlier2 w2))
         (weather_request key city)) →
  result (get_weather city (invoke_all earlier1 w1))
  = result (get_weather city (invoke_all earlier2 w2)).
Proof.
  intros Henv Hans.
  rewrite <- (invoke_all_environ earlier1 w1) in Henv.
  rewrite <- (invoke_all_environ earlier2 w2) in Henv.
  generalize dependent (invoke_all earlier2 w2).
  generalize dependent (invoke_all earlier1 w1).
  clear w1 w2. intros v1 v2 Henv Hans.
  destruct (environ v2 !! "WEATHER_API_KEY") as [key|] eqn:Hk.
  2: { rewrite !get_weather_unset by done. reflexivity. }
  destruct (decide (key = EmptyString)) as [->|Hne].
  { rewrite !get_weather_empty by done. reflexivity. }
  destruct (decide (key = placeholder)) as [->|Hnp].
  { rewrite !get_weather_placeholder by done. reflexivity. }
  rewrite !(get_weather_configured _ _ key) by done.
  unfold try_except. rewrite !fetch_report_eq, Hans.
  destruct (body_outcome _) as [s|e]; [reflexivity|].
  destruct (select (except_clauses city) e) as [c|] eqn:Hsel; [|reflexivity].
  apply (clause_ignores_world _ _ _ _ _ Hsel).
Qed.

(** C10. When [WEATHER_API_KEY] is present but empty, [get_weather] also
    returns the configuration-error string and no request goes out: the
    guard tests the truth value of the key, not its presence. *)
Theorem empty_key_short_circuits `{PyRepr} (city : string) (w : world) :
  environ w !! "WEATHER_API_KEY" = Some EmptyString →
  result (get_weather city w)
  = Return "Error: Weather API key not configured. Please add WEATHER_API_KEY to your .env file."
  ∧ issued (after (get_weather city w)) = issued w.
Proof.
  intros Hk. rewrite get_weather_empty by done. split; reflexivity.
Qed.

(** ** The claims at sample inputs *)

Lemma sample_key_configured : configured "k3y".
Proof. split; discriminate. Defined.

Lemma get_weather_returns_witness :
  ∃ s, result (@get_weather plain_repr "Paris" refused_world) = Return s.
Proof.
  apply (@get_weather_returns plain_repr "Paris" refused_world).
  intros key e [= <-]. split; [reflexivity | discriminate].
Defined.

Lemma unconfigured_key_short_circuits_witness :
  result (@get_weather plain_repr "Paris" placeholder_world)
  = Return config_error
  ∧ issued (after (@get_weather plain_repr "Paris" placeholder_world)) = [].
Proof.
  apply (@unconfigured_key_short_circuits plain_repr "Paris" placeholder_world).
  right. reflexivity.
Defined.

Lemma success_renders_report_witness :
  result (@get_weather plain_repr "Paris" paris_world)
  = Return
      ("Weather for Paris, France:" +:+ nl +:+
       "🌡️ Temperature: 15°C (59°F)" +:+ nl +:+
       "☁️ Condition: Partly cloudy" +:+ nl +:+
       "💧 Humidity: 70%" +:+ nl +:+
       "💨 Wind: 12 km/h").
Proof.
  apply (proj1 (@success_renders_report plain_repr)
           "Paris" "k3y" paris_world
           (Response 200 "200 OK" (Json (paris (VStr "France"))))
           (paris (VStr "France"))
           (VStr "Paris") (VStr "France") (VInt 15) (VInt 59)
           (VStr "Partly cloudy") (VInt 70) (VInt 12));
    solve [reflexivity | exact sample_key_configured].
Defined.

Lemma status_error_messages_witness :
  result (@get_weather plain_repr "Atlantis" bad_request_world)
  = Return "Sorry, I couldn't find weather data for 'Atlantis'. Please check the city name."
  ∧ result (@get_weather plain_repr "Atlantis" forbidden_world)
    = Return "Error fetching weather: Client error '403 Forbidden'".
Proof.
  split.
  - apply (proj1 (@status_error_messages plain_repr "Atlantis" "k3y"
                    bad_request_world
                    (Response 400 "Client error '400 Bad Request'"
                       (Malformed "Expecting value"))
                    eq_refl sample_key_configured eq_refl eq_refl)).
    reflexivity.
  - apply (proj2 (@status_error_messages plain_repr "Atlantis" "k3y"
                    forbidden_world
                    (Response 403 "Client error '403 Forbidden'"
                       (Malformed "Expecting value"))
                    eq_refl sample_key_configured eq_refl eq_refl)).
    discriminate.
Defined.

Lemma transport_failure_message_witness :
  result (@get_weather plain_repr "Paris" refused_world)
  = Return "Network error: Could not connect to weather service. [Errno 111] Connection refused".
Proof.
  apply (@transport_failure_message plain_repr "Paris" "k3y" refused_world
           (Exn Exc.ConnectError "[Errno 111] Connection refused" None)
           eq_refl sample_key_configured eq_refl eq_refl).
Defined.

Lemma malformed_body_message_witness :
  result (@get_weather plain_repr "Paris" garbled_world)
  = Return "Unexpected error: Expecting value: line 1 column 1 (char 0)"
  ∧ ∃ path e,
      path ∈ expected_fields
      ∧ @lookup_path plain_repr
          (VDict [("location", VDict [("name", VStr "Paris")])]) path
        = Raise e
      ∧ result (@get_weather plain_repr "Paris" no_country_world)
        = Return ("Unexpected error: " +:+ exc_str e).
Proof.
  split.
  - apply (proj1 (@malformed_body_message plain_repr "Paris" "k3y"
                    garbled_world
                    (Response 200 "200 OK"
                       (Malformed "Expecting value: line 1 column 1 (char 0)"))
                    eq_refl sample_key_configured eq_refl eq_refl)
             _ eq_refl).
  - apply (proj2 (@malformed_body_message plain_repr "Paris" "k3y"
                    no_country_world
                    (Response 200 "200 OK"
                       (Json (VDict [("location",
                                      VDict [("name", VStr "Paris")])])))
                    eq_refl sample_key_configured eq_refl eq_refl)
             _ eq_refl).
    exists ["location"; "country"]. eexists. split; [|reflexivity].
    apply list_elem_of_further, list_elem_of_here.
Defined.

Lemma one_request_when_sent_witness :
  issued (after (@get_weather plain_repr "Paris" refused_world))
  = [weather_request "k3y" "Paris"]
  ∧ issued (after (@get_weather plain_repr long_city invalid_url_world)) = [].
Proof.
  split.
  - apply (proj1 (@one_request_when_sent plain_repr "Paris" "k3y"
                    refused_world eq_refl sample_key_configured)).
    reflexivity.
  - apply (proj2 (@one_request_when_sent plain_repr long_city "k3y"
                    invalid_url_world eq_refl sample_key_configured)).
    reflexivity.
Defined.

Lemma no_state_across_calls_witness :
  result (@get_weather plain_repr "Paris"
            (@invoke_all plain_repr ["London"; "Tokyo"] paris_world))
  = result (@get_weather plain_repr "Paris" paris_world).
Proof.
  apply (@no_state_across_calls plain_repr "Paris" ["London"; "Tokyo"] []
           paris_world paris_world eq_refl).
  intros key. reflexivity.
Defined.

Lemma empty_key_short_circuits_witness :
  result (@get_weather plain_repr "Paris" empty_key_world)
  = Return config_error
  ∧ issued (after (@get_weather plain_repr "Paris" empty_key_world)) = [].
Proof.
  apply (@empty_key_short_circuits plain_repr "Paris" empty_key_world).
  reflexivity.
Defined.

(** ** Further properties of the tool *)

Lemma get_weather_after_configured `{PyRepr} city key w :
  environ w !! "WEATHER_API_KEY" = Some key →
  configured key →
  after (get_weather city w) = after_call (weather_request key city) w.
Proof.
  intros Hk Hc. rewrite (get_weather_configured _ _ key) by done.
  unfold try_except. rewrite fetch_report_eq.
  destruct (body_outcome _) as [s|e]; [reflexivity|].
  destruct (select (except_clauses city) e) as [c|] eqn:Hsel; [|reflexivity].
  apply (clause_keeps_world _ _ _ _ Hsel).
Qed.

Lemma get_weather_after_unconfigured `{PyRepr} city w :
  environ w !! "WEATHER_API_KEY" = None
  ∨ environ w !! "WEATHER_API_KEY" = Some EmptyString
  ∨ environ w !! "WEATHER_API_KEY" = Some placeholder →
  after (get_weather city w) = w.
Proof.
  intros [Hk | [Hk | Hk]].
  - rewrite get_weather_unset by done. reflexivity.
  - rewrite get_weather_empty by done. reflexivity.
  - rewrite get_weather_placeholder by done. reflexivity.
Qed.

(** X1. Among the expected fields that cannot be read, the one the tool
    reports is the first in reading order (name, country, temp_c, temp_f,
    condition text, humidity, wind_kph): its exception text follows
    "Unexpected error: ". *)
Theorem first_failing_lookup_reported `{PyRepr} (city key : string) (w : world)
    (r : response) (data : value) (e : exn) :
  environ w !! "WEATHER_API_KEY" = Some key →
  configured key →
  provider w (issued w) (weather_request key city) = Responds r →
  is_success r = true →
  body r = Json data →
  first_raise (map (lookup_path data) expected_fields) = Some e →
  result (get_weather city w) = Return ("Unexpected error: " +:+ exc_str e).
Proof.
  intros Hk Hc Hp Hs Hb Hf.
  rewrite (get_weather_configured _ _ key) by done.
  unfold try_except. rewrite (fetch_report_json _ _ _ _ _ Hp Hs Hb).
  unfold expected_fields in Hf. cbn [map] in Hf.
  unfold rendered, mbind, outcome_bind.
  repeat match goal with
         | |- context [match lookup_path data ?p with _ => _ end] =>
             let Ho := fresh "Ho" in
             destruct (lookup_path data p) eqn:Ho; cbn [first_raise] in Hf;
             [| injection Hf as ->;
                rewrite lookup_error_unexpected
                  by (eapply lookup_path_error, Ho);
                reflexivity ]
         end.
  discriminate Hf.
Qed.

(** X2. The tool looks at nothing but the seven expected fields: two 2xx
    bodies that agree on them give the same result, whatever else they
    hold. *)
Theorem unread_fields_ignored `{PyRepr} (city key : string) (w1 w2 : world)
    (r1 r2 : response) (data1 data2 : value) :
  environ w1 !! "WEATHER_API_KEY" = Some key →
  environ w2 !! "WEATHER_API_KEY" = Some key →
  configured key →
  provider w1 (issued w1) (weather_request key city) = Responds r1 →
  provider w2 (issued w2) (weather_request key city) = Responds r2 →
  is_success r1 = true → is_success r2 = true →
  body r1 = Json data1 → body r2 = Json data2 →
  (∀ path, path ∈ expected_fields →
           lookup_path data1 path = lookup_path data2 path) →
  result (get_weather city w1) = result (get_weather city w2).
Proof.
  intros Hk1 Hk2 Hc Hp1 Hp2 Hs1 Hs2 Hb1 Hb2 Hsame.
  rewrite !(get_weather_configured _ _ key) by done.
  unfold try_except.
  rewrite (fetch_report_json _ _ _ _ _ Hp1 Hs1 Hb1).
  rewrite (fetch_report_json _ _ _ _ _ Hp2 Hs2 Hb2).
  assert (rendered data1 = rendered data2) as ->.
  { unfold rendered.
    rewrite (Hsame ["location"; "name"]) by in_expected_fields.
    rewrite (Hsame ["location"; "country"]) by in_expected_fields.
    rewrite (Hsame ["current"; "temp_c"]) by in_expected_fields.
    rewrite (Hsame ["current"; "temp_f"]) by in_expected_fields.
    rewrite (Hsame ["current"; "condition"; "text"]) by in_expected_fields.
    rewrite (Hsame ["current"; "humidity"]) by in_expected_fields.
    rewrite (Hsame ["current"; "wind_kph"]) by in_expected_fields.
    reflexivity. }
  destruct (rendered data2) as [s|e]; [reflexivity|].
  destruct (select (except_clauses city) e) as [c|] eqn:Hsel; [|reflexivity].
  apply (clause_ignores_world _ _ _ _ _ Hsel).
Qed.

(** X3. When the call returns a response with a 2xx status or with status
    400, the result does not depend on the key: two configured keys and
    two responses with the same status and body give the same string.  (On
    another status the result carries the text of the error, which [httpx]
    words with the URL of the request, key included.) *)
Theorem result_independent_of_key `{PyRepr} (city key1 key2 : string)
    (w1 w2 : world) (r1 r2 : response) :
  environ w1 !! "WEATHER_API_KEY" = Some key1 →
  environ w2 !! "WEATHER_API_KEY" = Some key2 →
  configured key1 → configured key2 →
  provider w1 (issued w1) (weather_request key1 city) = Responds r1 →
  provider w2 (issued w2) (weather_request key2 city) = Responds r2 →
  status_code r1 = status_code r2 →
  body r1 = body r2 →
  is_success r1 = true ∨ status_code r1 = 400 →
  result (get_weather city w1) = result (get_weather city w2).
Proof.
  intros Hk1 Hk2 Hc1 Hc2 Hp1 Hp2 Hcode Hbody Hkind.
  rewrite (get_weather_configured _ _ key1) by done.
  rewrite (get_weather_configured _ _ key2) by done.
  unfold try_except. rewrite !fetch_report_eq, Hp1, Hp2.
  unfold body_outcome, is_success. rewrite <- Hcode, <- Hbody.
  fold (is_success r1).
  destruct (is_success r1) eqn:Hs.
  - destruct (body r1) as [data|detail].
    + destruct (rendered data) as [s|e]; [reflexivity|].
      destruct (select (except_clauses city) e) as [c|] eqn:Hsel;
        [|reflexivity].
      apply (clause_ignores_world _ _ _ _ _ Hsel).
    + reflexivity.
  - destruct Hkind as [|H400]; [discriminate|].
    rewrite !select_status by reflexivity. cbn [snd].
    rewrite (on_status_error_response _ _ r1) by reflexivity.
    rewrite (on_status_error_response _ _ r2) by reflexivity.
    rewrite <- Hcode, !bool_decide_eq_true_2 by done. reflexivity.
Qed.

(** X4. A failure of the call that is an [Exception] but neither an
    [httpx.HTTPStatusError] nor an [httpx.RequestError] (an
    [httpx.InvalidURL], say) ends in the last clause: "Unexpected error: "
    and its text. *)
Theorem other_call_failure_unexpected `{PyRepr} (city key : string)
    (w : world) (e : exn) :
  environ w !! "WEATHER_API_KEY" = Some key →
  configured key →
  provider w (issued w) (weather_request key city) = Fails e →
  isinstance e Exc.Exception = true →
  isinstance e Exc.HTTPStatusError = false →
  isinstance e Exc.RequestError = false →
  result (get_weather city w) = Return ("Unexpected error: " +:+ exc_str e).
Proof.
  intros Hk Hc Hp He Hs Hr.
  rewrite (get_weather_configured _ _ key) by done.
  unfold try_except. rewrite (fetch_report_fails _ _ _ _ Hp).
  rewrite (select_exception _ _ Hs Hr He). reflexivity.
Qed.

(** X5. What is raised during the call and is no instance of [Exception]
    (a [KeyboardInterrupt], a [SystemExit]) is not turned into a string:
    no clause takes it and the tool raises it unchanged. *)
Theorem non_exception_propagates `{PyRepr} (city key : string) (w : world)
    (e : exn) :
  environ w !! "WEATHER_API_KEY" = Some key →
  configured key →
  provider w (issued w) (weather_request key city) = Fails e →
  isinstance e Exc.Exception = false →
  result (get_weather city w) = Raise e.
Proof.
  intros Hk Hc Hp He.
  rewrite (get_weather_configured _ _ key) by done.
  unfold try_except. rewrite (fetch_report_fails _ _ _ _ Hp).
  rewrite (select_none _ _ He). reflexivity.
Qed.

(** X6. A series of invocations never issues more requests than there are
    invocations: nothing is retried.  With a configured key, and as long as
    no call raises before sending, it issues exactly one request per
    invocation, in the order of the invocations, each for its own city:
    nothing is cached or skipped. *)
Theorem one_request_per_invocation `{PyRepr} (cities : list string)
    (w : world) :
  (length (issued (invoke_all cities w))
   ≤ length (issued w) + length cities)%nat
  ∧ ∀ key,
      environ w !! "WEATHER_API_KEY" = Some key →
      configured key →
      (∀ h req, goes_out w h req = true) →
      issued (invoke_all cities w)
      = (rev (map (weather_request key) cities) ++ issued w)%list.
Proof.
  split.
  - revert w. induction cities as [|city rest IH]; intros w.
    + cbn [invoke_all length]. lia.
    + cbn [invoke_all length]. etransitivity; [apply IH|].
      destruct (get_weather_after city w) as [-> | (key & _ & ->)];
        cbn [sent issued length]; lia.
  - intros key Hk Hc Hout. revert w Hk Hout.
    induction cities as [|city rest IH]; intros w Hk Hout; [reflexivity|].
    cbn [invoke_all map rev].
    rewrite (get_weather_after_configured _ key) by done.
    assert (after_call (weather_request key city) w
            = sent (weather_request key city) w) as ->.
    { unfold after_call, dispatched. rewrite Hout.
      destruct (provider _ _ _); reflexivity. }
    rewrite IH by (exact Hk || exact Hout).
    rewrite <- app_assoc. reflexivity.
Qed.

(** X7. Without a usable key (unset, empty or the placeholder), no number
    of invocations changes anything: the environment, the requests issued
    and the provider are as before. *)
Theorem unconfigured_invocations_leave_world `{PyRepr} (cities : list string)
    (w : world) :
  environ w !! "WEATHER_API_KEY" = None
  ∨ environ w !! "WEATHER_API_KEY" = Some EmptyString
  ∨ environ w !! "WEATHER_API_KEY" = Some placeholder →
  invoke_all cities w = w.
Proof.
  intros Hk. induction cities as [|city rest IH]; [reflexivity|].
  cbn [invoke_all]. rewrite get_weather_after_unconfigured by exact Hk.
  exact IH.
Qed.

(** X8. The six kinds of result never coincide, whatever is substituted
    into them: a caller can tell from the string whether it got a report,
    the configuration error, the message for status 400, the one for
    another status, the network error or the unexpected error. *)
Theorem result_kinds_distinct
    (location country temp_c temp_f condition humidity wind_kph : string)
    (city status failure detail : string) :
  let rep := report location country temp_c temp_f condition humidity
               wind_kph in
  (rep ≠ config_error ∧ rep ≠ not_found city ∧ rep ≠ fetch_error status
   ∧ rep ≠ network_error failure ∧ rep ≠ unexpected_error detail)
  ∧ (config_error ≠ not_found city ∧ config_error ≠ fetch_error status
     ∧ config_error ≠ network_error failure
     ∧ config_error ≠ unexpected_error detail)
  ∧ (not_found city ≠ fetch_error status
     ∧ not_found city ≠ network_error failure
     ∧ not_found city ≠ unexpected_error detail)
  ∧ (fetch_error status ≠ network_error failure
     ∧ fetch_error status ≠ unexpected_error detail)
  ∧ network_error failure ≠ unexpected_error detail.
Proof.
  cbv [report config_error not_found fetch_error network_error
       unexpected_error nl String.append].
  repeat split; discriminate.
Qed.

(** X9. As long as what the provider raises is a well-formed error, the
    result is always of one of the six kinds: the configuration error, a
    report, the message for status 400 naming the requested city, a fetch
    error, a network error or an unexpected error. *)
Theorem result_is_of_a_known_kind `{PyRepr} (city : string) (w : world) :
  (∀ key e,
     provider w (issued w) (weather_request key city) = Fails e →
     well_formed e) →
  ∃ s, result (get_weather city w) = Return s
       ∧ (s = config_error
          ∨ (∃ location country temp_c temp_f condition humidity wind_kph,
               s = report location country temp_c temp_f condition humidity
                     wind_kph)
          ∨ s = not_found city
          ∨ (∃ detail, s = fetch_error detail)
          ∨ (∃ detail, s = network_error detail)
          ∨ (∃ detail, s = unexpected_error detail)).
Proof.
  intros Hwf.
  destruct (environ w !! "WEATHER_API_KEY") as [key|] eqn:Hk.
  2: { rewrite get_weather_unset by done. eauto. }
  destruct (decide (key = EmptyString)) as [->|Hne].
  { rewrite get_weather_empty by done. eauto. }
  destruct (decide (key = placeholder)) as [->|Hnp].
  { rewrite get_weather_placeholder by done. eauto. }
  rewrite (get_weather_configured _ _ key) by done.
  unfold try_except. rewrite fetch_report_eq.
  destruct (body_outcome _) as [s|e] eqn:Hb.
  - exists s. split; [reflexivity|]. right. left.
    unfold body_outcome in Hb.
    destruct (provider _ _ _) as [r|]; [|discriminate].
    destruct (is_success r); [|discriminate].
    destruct (body r) as [data|]; [|discriminate].
    unfold rendered, mbind, outcome_bind in Hb.
    repeat match type of Hb with
           | match ?o with _ => _ end = _ => destruct o; [|discriminate]
           end.
    injection Hb as <-. eauto 10.
  - eapply body_outcome_well_formed in Hb; [|intros e' He'; eapply Hwf, He'].
    destruct Hb as [He Hresp].
    destruct (isinstance e Exc.HTTPStatusError) eqn:Hs.
    + destruct (Hresp eq_refl) as [r Hr].
      rewrite (select_status _ _ Hs). cbn [snd].
      rewrite (on_status_error_response _ _ _ _ Hr).
      destruct (bool_decide _); eauto 10.
    + destruct (isinstance e Exc.RequestError) eqn:Hq.
      * rewrite (select_request _ _ Hq). eexists. split; [reflexivity|].
        do 4 right. left. eauto.
      * rewrite (select_exception _ _ Hs Hq He). eexists.
        split; [reflexivity|]. do 5 right. eauto.
Qed.

(** X10. A 2xx body that decodes to something other than an object (null,
    a number, a string, a list) never gives a report: the first subscript
    raises a [TypeError] and the tool answers "Unexpected error: " and its
    text. *)
Theorem non_object_body_unexpected `{PyRepr} (city key : string) (w : world)
    (r : response) (data : value) :
  environ w !! "WEATHER_API_KEY" = Some key →
  configured key →
  provider w (issued w) (weather_request key city) = Responds r →
  is_success r = true →
  body r = Json data →
  is_object data = false →
  ∃ e, subscript data "location" = Raise e
       ∧ exc_type e = Exc.TypeError
       ∧ result (get_weather city w)
         = Return ("Unexpected error: " +:+ exc_str e).
Proof.
  intros Hk Hc Hp Hs Hb Hobj.
  rewrite (get_weather_configured _ _ key) by done.
  unfold try_except. rewrite (fetch_report_json _ _ _ _ _ Hp Hs Hb).
  destruct data; try discriminate Hobj;
    (eexists; split; [reflexivity|]; split; reflexivity).
Qed.

(** X11. When the decoded object has no [location] key (the empty object,
    say), the detail shown is the [KeyError] of that first lookup, which is
    the [repr] of the key: the result is "Unexpected error: " followed by
    the quoted word location. *)
Theorem missing_location_message `{PyRepr} (city key : string) (w : world)
    (r : response) (items : list (string * value)) :
  environ w !! "WEATHER_API_KEY" = Some key →
  configured key →
  provider w (issued w) (weather_request key city) = Responds r →
  is_success r = true →
  body r = Json (VDict items) →
  dict_get items "location" = None →
  result (get_weather city w)
  = Return ("Unexpected error: " +:+ repr_str "location").
Proof.
  intros Hk Hc Hp Hs Hb Hnone.
  rewrite (get_weather_configured _ _ key) by done.
  unfold try_except. rewrite (fetch_report_json _ _ _ _ _ Hp Hs Hb).
  assert (lookup_path (VDict items) ["location"; "name"]
          = Raise (Exn Exc.KeyError (repr_str "location") None)) as Hl.
  { cbn [lookup_path subscript]. rewrite Hnone. reflexivity. }
  unfold rendered. rewrite Hl. reflexivity.
Qed.

(** ** The further properties at sample inputs *)

Lemma first_failing_lookup_reported_witness :
  result (@get_weather plain_repr "Paris" no_country_world)
  = Return "Unexpected error: 'country'".
Proof.
  apply (@first_failing_lookup_reported plain_repr "Paris" "k3y"
           no_country_world
           (Response 200 "200 OK"
              (Json (VDict [("location", VDict [("name", VStr "Paris")])])))
           (VDict [("location", VDict [("name", VStr "Paris")])])
           (Exn Exc.KeyError "'country'" None)
           eq_refl sample_key_configured eq_refl eq_refl eq_refl eq_refl).
Defined.

Lemma unread_fields_ignored_witness :
  result (@get_weather plain_repr "Paris" paris_verbose_world)
  = result (@get_weather plain_repr "Paris" paris_world).
Proof.
  apply (@unread_fields_ignored plain_repr "Paris" "k3y"
           paris_verbose_world paris_world
           (Response 200 "200 OK" (Json paris_verbose))
           (Response 200 "200 OK" (Json (paris (VStr "France"))))
           paris_verbose (paris (VStr "France"))
           eq_refl eq_refl sample_key_configured eq_refl eq_refl
           eq_refl eq_refl eq_refl eq_refl).
  intros path Hin. unfold expected_fields in Hin.
  repeat (apply elem_of_cons in Hin as [-> | Hin]; [reflexivity|]).
  apply elem_of_nil in Hin. destruct Hin.
Defined.

Lemma result_independent_of_key_witness :
  result (@get_weather plain_repr "Paris" paris_world)
  = result (@get_weather plain_repr "Paris" other_key_world).
Proof.
  apply (@result_independent_of_key plain_repr "Paris" "k3y" "an0ther"
           paris_world other_key_world
           (Response 200 "200 OK" (Json (paris (VStr "France"))))
           (Response 200 "200 OK" (Json (paris (VStr "France"))))
           eq_refl eq_refl sample_key_configured).
  - split; discriminate.
  - reflexivity.
  - reflexivity.
  - reflexivity.
  - reflexivity.
  - left. reflexivity.
Defined.

Lemma other_call_failure_unexpected_witness :
  result (@get_weather plain_repr "Paris" invalid_url_world)
  = Return "Unexpected error: URL component 'query' too long".
Proof.
  apply (@other_call_failure_unexpected plain_repr "Paris" "k3y"
           invalid_url_world
           (Exn Exc.InvalidURL "URL component 'query' too long" None)
           eq_refl sample_key_configured eq_refl eq_refl eq_refl eq_refl).
Defined.

Lemma non_exception_propagates_witness :
  result (@get_weather plain_repr "Paris" interrupted_world)
  = Raise (Exn Exc.KeyboardInterrupt EmptyString None).
Proof.
  apply (@non_exception_propagates plain_repr "Paris" "k3y"
           interrupted_world (Exn Exc.KeyboardInterrupt EmptyString None)
           eq_refl sample_key_configured eq_refl eq_refl).
Defined.

Lemma one_request_per_invocation_witness :
  issued (@invoke_all plain_repr ["London"; "Tokyo"] paris_world)
  = [weather_request "k3y" "Tokyo"; weather_request "k3y" "London"].
Proof.
  apply (proj2 (@one_request_per_invocation plain_repr ["London"; "Tokyo"]
                  paris_world) "k3y" eq_refl sample_key_configured).
  intros h req. reflexivity.
Defined.

Lemma unconfigured_invocations_leave_world_witness :
  @invoke_all plain_repr ["London"; "Tokyo"] placeholder_world
  = placeholder_world.
Proof.
  apply (@unconfigured_invocations_leave_world plain_repr ["London"; "Tokyo"]
           placeholder_world).
  right. right. reflexivity.
Defined.

Lemma result_is_of_a_known_kind_witness :
  ∃ s, result (@get_weather plain_repr "Paris" refused_world) = Return s
       ∧ (s = config_error
          ∨ (∃ location country temp_c temp_f condition humidity wind_kph,
               s = report location country temp_c temp_f condition humidity
                     wind_kph)
          ∨ s = not_found "Paris"
          ∨ (∃ detail, s = fetch_error detail)
          ∨ (∃ detail, s = network_error detail)
          ∨ (∃ detail, s = unexpected_error detail)).
Proof.
  apply (@result_is_of_a_known_kind plain_repr "Paris" refused_world).
  intros key e [= <-]. split; [reflexivity | discriminate].
Defined.

Lemma non_object_body_unexpected_witness :
  ∃ e, @subscript plain_repr VNone "location" = Raise e
       ∧ exc_type e = Exc.TypeError
       ∧ result (@get_weather plain_repr "Paris" null_body_world)
         = Return ("Unexpected error: " +:+ exc_str e).
Proof.
  apply (@non_object_body_unexpected plain_repr "Paris" "k3y" null_body_world
           (Response 200 "200 OK" (Json VNone)) VNone
           eq_refl sample_key_configured eq_refl eq_refl eq_refl eq_refl).
Defined.

Lemma missing_location_message_witness :
  result (@get_weather plain_repr "Paris" empty_object_world)
  = Return "Unexpected error: 'location'".
Proof.
  apply (@missing_location_message plain_repr "Paris" "k3y" empty_object_world
           (Response 200 "200 OK" (Json (VDict []))) []
           eq_refl sample_key_configured eq_refl eq_refl eq_refl eq_refl).
Defined.
